(** * Command dispatch and status polling of the robot control view

    Shallow embedding of the script of the robot control home view
    ([handleSendCommand], [pollRobotStatus], [startPolling], [stopPolling],
    [addLog], [onMounted], [onUnmounted]).

    - JavaScript strings are sequences of UTF-16 code units ([jsstr]); the
      literals of the source are written as Rocq (UTF-8) string literals and
      decoded by [js].
    - The component's reactive refs, the browser's interval timers, the
      toasts and the network are one record [St]; the synchronous segments of
      the async functions are computations of a state and exception monad [M]
      (a thrown [Error] is represented by its [message]).
    - Each [await] of a fetch splits a function in two: the part up to the
      request ([..._start]) and the continuation run when the response
      arrives ([..._resume]).  The browser is the step relation [step]. *)

From Stdlib Require Import String Ascii List ZArith Bool Lia.
Import ListNotations.
Open Scope Z_scope.

(* ------------------------------------------------------------------ *)
(** ** JavaScript strings *)

Definition jsstr := list Z.

(** UTF-8 bytes to UTF-16 code units. *)
Fixpoint utf16_of_utf8 (l : list Z) : list Z :=
  match l with
  | [] => []
  | b :: rest =>
      if b <? 128 then b :: utf16_of_utf8 rest
      else if b <? 224 then
        match rest with
        | c :: r => Z.lor (Z.shiftl (Z.land b 31) 6) (Z.land c 63) :: utf16_of_utf8 r
        | [] => []
        end
      else if b <? 240 then
        match rest with
        | c :: d :: r =>
            Z.lor (Z.shiftl (Z.land b 15) 12)
                  (Z.lor (Z.shiftl (Z.land c 63) 6) (Z.land d 63)) :: utf16_of_utf8 r
        | _ => []
        end
      else
        match rest with
        | c :: d :: e :: r =>
            let cp := Z.lor (Z.shiftl (Z.land b 7) 18)
                        (Z.lor (Z.shiftl (Z.land c 63) 12)
                           (Z.lor (Z.shiftl (Z.land d 63) 6) (Z.land e 63))) in
            (55296 + Z.shiftr (cp - 65536) 10)
              :: (56320 + Z.land (cp - 65536) 1023) :: utf16_of_utf8 r
        | _ => []
        end
  end.

Definition js (s : string) : jsstr :=
  utf16_of_utf8 (map (fun c => Z.of_nat (nat_of_ascii c)) (list_ascii_of_string s)).

Definition jsstr_eqb (a b : jsstr) : bool :=
  if list_eq_dec Z.eq_dec a b then true else false.

(** [a || b] on strings: the empty string is falsy. *)
Definition js_or_str (a d : jsstr) : jsstr :=
  match a with [] => d | _ => a end.

(** [a || b] where [a] may be [undefined]. *)
Definition js_or (a : option jsstr) (d : jsstr) : jsstr :=
  match a with Some x => js_or_str x d | None => d end.

(** The characters removed by [String.prototype.trim]
    (WhiteSpace and LineTerminator of ECMA-262). *)
Definition is_js_ws (c : Z) : bool :=
  (9 <=? c) && (c <=? 13) || (c =? 32) || (c =? 160) || (c =? 5760)
  || (8192 <=? c) && (c <=? 8202) || (c =? 8232) || (c =? 8233)
  || (c =? 8239) || (c =? 8287) || (c =? 12288) || (c =? 65279).

Fixpoint drop_ws (s : jsstr) : jsstr :=
  match s with
  | c :: r => if is_js_ws c then drop_ws r else s
  | [] => []
  end.

Definition js_trim (s : jsstr) : jsstr := rev (drop_ws (rev (drop_ws s))).

(** [s.split(sep)] for a one-unit separator. *)
Fixpoint js_split (sep : Z) (s : jsstr) : list jsstr :=
  match s with
  | [] => [[]]
  | c :: r =>
      if c =? sep then [] :: js_split sep r
      else match js_split sep r with
           | w :: ws => (c :: w) :: ws
           | [] => [[c]]
           end
  end.

Fixpoint js_join (sep : jsstr) (l : list jsstr) : jsstr :=
  match l with
  | [] => []
  | [x] => x
  | x :: r => x ++ sep ++ js_join sep r
  end.

Fixpoint digits (fuel : nat) (n : Z) (acc : jsstr) : jsstr :=
  match fuel with
  | O => acc
  | S f => if n <? 10 then (48 + n) :: acc
           else digits f (n / 10) ((48 + n mod 10) :: acc)
  end.

(** Decimal rendering of an integral number, as in a template literal. *)
Definition js_of_Z (n : Z) : jsstr :=
  if n <? 0 then 45 :: digits 64 (- n) [] else digits 64 n [].

(* ------------------------------------------------------------------ *)
(** ** Data *)

(** [gv0_value: number | string | null] *)
Inductive Gv := GvNum (z : Z) | GvStr (s : jsstr) | GvNull.

(** [interface RobotStatusData] *)
Record RobotStatusData := mkRobotStatusData {
  mode : jsstr;
  run_status : jsstr;
  alarm_status : jsstr;
  alarm_code : option Z;
  gv0_value : Gv
}.

(** [robotState.value] *)
Record RobotState := mkRobotState {
  connected : bool;
  rs_isLoading : bool;               (* robotState.isLoading *)
  errorMessage : option jsstr;
  data : option RobotStatusData      (* None: undefined *)
}.

Record Toast := mkToast {
  t_title : jsstr;
  t_description : option jsstr;
  t_destructive : bool
}.

(** The two endpoints the view calls. *)
Inductive Request := ApiCommand (commands : jsstr) | ApiStatus.

(** A pending continuation: the rest of an async function waiting for a fetch. *)
Inductive Pending := PCommand | PStatus.

(** One entry of [detailed_results]. *)
Record DetailedResult := mkDetailedResult {
  d_command : jsstr;
  d_status : jsstr;
  d_message : jsstr
}.

(** The JSON body of a response (fields absent are [None]). *)
Record RespBody := mkRespBody {
  r_status : option jsstr;
  r_message : option jsstr;
  r_motion_started : option bool;
  r_robot_status : option RobotStatusData;
  r_detailed_results : option (list DetailedResult)
}.

Inductive Json := Malformed (msg : jsstr) | Body (b : RespBody).

(** What [await fetch(..)] followed by [await response.json()] yields:
    a rejected fetch, or a response with [ok], [status] and its body. *)
Inductive FetchResult :=
| NetworkError (msg : jsstr)
| Response (ok : bool) (http_status : Z) (body : Json).

(** Component state, browser timers, toasts shown and network traffic. *)
Record St := mkSt {
  robotState : RobotState;
  logMessages : list jsstr;          (* newest first *)
  isLoading : bool;
  pollingInterval : option Z;        (* None: undefined *)
  timers : list Z;                   (* active interval ids of the browser *)
  next_timer : Z;
  toasts : list Toast;               (* newest first *)
  requests : list Request;           (* every fetch issued, newest first *)
  inflight : list Pending
}.

(* ------------------------------------------------------------------ *)
(** ** State and exception monad *)

Inductive Exc (A : Type) := Ok (a : A) | Throw (msg : jsstr).
Arguments Ok {A} a.
Arguments Throw {A} msg.

Definition M (A : Type) := St -> Exc A * St.

Definition ret {A} (a : A) : M A := fun s => (Ok a, s).

Definition bind {A B} (m : M A) (k : A -> M B) : M B :=
  fun s => match m s with
           | (Ok a, s') => k a s'
           | (Throw e, s') => (Throw e, s')
           end.

Definition throw {A} (msg : jsstr) : M A := fun s => (Throw msg, s).

Definition modify (f : St -> St) : M unit := fun s => (Ok tt, f s).

Definition gets {A} (f : St -> A) : M A := fun s => (Ok (f s), s).

Notation "x <- m ;; k" := (bind m (fun x => k))
  (at level 61, m at next level, right associativity).
Notation "m ;; k" := (bind m (fun _ => k))
  (at level 61, right associativity).

Definition when (b : bool) (m : M unit) : M unit := if b then m else ret tt.

(** [try { m } catch (error) { h }] *)
Definition try_catch (m : M unit) (h : jsstr -> M unit) : M unit :=
  fun s => match m s with
           | (Ok a, s') => (Ok a, s')
           | (Throw e, s') => h e s'
           end.

(** [... finally { f }] *)
Definition finally (m : M unit) (f : M unit) : M unit :=
  fun s => match m s with
           | (r, s') => match f s' with
                        | (Ok _, s'') => (r, s'')
                        | (Throw e, s'') => (Throw e, s'')
                        end
           end.

Fixpoint forEach {A} (l : list A) (f : A -> M unit) : M unit :=
  match l with
  | [] => ret tt
  | x :: r => f x ;; forEach r f
  end.

(** Final state of a computation (an uncaught error of an async function only
    rejects its promise). *)
Definition exec (m : M unit) (s : St) : St := snd (m s).

(* ------------------------------------------------------------------ *)
(** ** Field updates *)

Definition set_robotState (f : RobotState -> RobotState) (s : St) : St :=
  mkSt (f (robotState s)) (logMessages s) (isLoading s) (pollingInterval s)
       (timers s) (next_timer s) (toasts s) (requests s) (inflight s).

Definition set_connected (b : bool) : M unit :=
  modify (set_robotState (fun r =>
    mkRobotState b (rs_isLoading r) (errorMessage r) (data r))).

Definition set_rs_isLoading (b : bool) : M unit :=
  modify (set_robotState (fun r =>
    mkRobotState (connected r) b (errorMessage r) (data r))).

Definition set_errorMessage (e : option jsstr) : M unit :=
  modify (set_robotState (fun r =>
    mkRobotState (connected r) (rs_isLoading r) e (data r))).

Definition set_data (d : option RobotStatusData) : M unit :=
  modify (set_robotState (fun r =>
    mkRobotState (connected r) (rs_isLoading r) (errorMessage r) d)).

Definition set_isLoading (b : bool) : M unit :=
  modify (fun s => mkSt (robotState s) (logMessages s) b (pollingInterval s)
                        (timers s) (next_timer s) (toasts s) (requests s) (inflight s)).

Definition set_pollingInterval (p : option Z) : M unit :=
  modify (fun s => mkSt (robotState s) (logMessages s) (isLoading s) p
                        (timers s) (next_timer s) (toasts s) (requests s) (inflight s)).

(** [toast({...})] *)
Definition toast (t : Toast) : M unit :=
  modify (fun s => mkSt (robotState s) (logMessages s) (isLoading s) (pollingInterval s)
                        (timers s) (next_timer s) (t :: toasts s) (requests s) (inflight s)).

(** [setInterval(..)]: a fresh, positive id. *)
Definition setInterval : M Z :=
  fun s => (Ok (next_timer s),
            mkSt (robotState s) (logMessages s) (isLoading s) (pollingInterval s)
                 (next_timer s :: timers s) (next_timer s + 1)
                 (toasts s) (requests s) (inflight s)).

(** [clearInterval(h)] *)
Definition clearInterval (h : Z) : M unit :=
  modify (fun s => mkSt (robotState s) (logMessages s) (isLoading s) (pollingInterval s)
                        (remove Z.eq_dec h (timers s)) (next_timer s)
                        (toasts s) (requests s) (inflight s)).

(** [fetch(..)]: issues the request and leaves the continuation pending. *)
Definition fetch (r : Request) (k : Pending) : M unit :=
  modify (fun s => mkSt (robotState s) (logMessages s) (isLoading s) (pollingInterval s)
                        (timers s) (next_timer s) (toasts s) (r :: requests s)
                        (k :: inflight s)).

(** [addLog(message)]: [now] is [new Date().toLocaleTimeString()]. *)
Definition log_entry (now message : jsstr) : jsstr :=
  js "[" ++ now ++ js "] " ++ message.

Definition addLog (now message : jsstr) : M unit :=
  modify (fun s => mkSt (robotState s) (log_entry now message :: logMessages s)
                        (isLoading s) (pollingInterval s) (timers s) (next_timer s)
                        (toasts s) (requests s) (inflight s)).

(* ------------------------------------------------------------------ *)
(** ** The script of the view *)

Definition DQ : jsstr := [34].   (* a double quote *)
Definition NL : jsstr := [10].   (* a newline *)

(** The backend's "stopped" run status and "failed" field marker. *)
Definition STOPPED : jsstr := js "停止".
Definition FAILED : jsstr := js "失败".

(** The placeholder stored in [robotState.data] by both [catch] blocks. *)
Definition failed_placeholder : RobotStatusData :=
  mkRobotStatusData FAILED FAILED FAILED None (GvStr (js "N/A")).

(** [robotState] as declared. *)
Definition initial_robotState : RobotState :=
  mkRobotState false true None
    (Some (mkRobotStatusData (js "连接中...") (js "连接中...") (js "连接中...")
                             None (GvStr (js "N/A")))).

Definition init : St :=
  mkSt initial_robotState [] false None [] 1 [] [] [].

(** [function stopPolling()] *)
Definition stopPolling : M unit :=
  p <- gets pollingInterval ;;
  match p with
  | Some h =>
      if h =? 0 then ret tt                (* 0 is falsy *)
      else clearInterval h ;; set_pollingInterval None
  | None => ret tt
  end.

(** [function startPolling(interval = 1000)] *)
Definition startPolling (now : jsstr) (interval : Z) : M unit :=
  stopPolling ;;
  addLog now (js "状态轮询已启动，间隔: " ++ js_of_Z interval ++ js "ms") ;;
  h <- setInterval ;;
  set_pollingInterval (Some h).

(** The log line of a submitted batch. *)
Definition batch_summary (command : jsstr) : jsstr :=
  js "发送指令批次:" ++ NL ++ DQ
  ++ js_join NL (map (fun c => js "- " ++ js_trim c) (js_split 10 command))
  ++ DQ.

(** [`> "${res.command}": ${res.message} (${res.status})`] *)
Definition result_line (res : DetailedResult) : jsstr :=
  js "> " ++ DQ ++ d_command res ++ DQ ++ js ": " ++ d_message res
  ++ js " (" ++ d_status res ++ js ")".

Definition validation_toast : Toast :=
  mkToast (js "错误") (Some (js "指令不能为空！")) true.

(** [async function handleSendCommand(command)], up to [await fetch(..)]. *)
Definition handleSendCommand_start (now command : jsstr) : M unit :=
  if jsstr_eqb (js_trim command) [] then
    toast validation_toast
  else
    set_isLoading true ;;
    addLog now (batch_summary command) ;;
    stopPolling ;;
    fetch (ApiCommand command) PCommand.

(** [const data = await response.json()]: a rejected fetch or an unparsable
    body throws. *)
Definition await_response (r : FetchResult) : M (bool * Z * RespBody) :=
  match r with
  | NetworkError m => throw m
  | Response _ _ (Malformed m) => throw m
  | Response ok st (Body b) => ret (ok, st, b)
  end.

Definition status_is (b : RespBody) (s : string) : bool :=
  match r_status b with Some x => jsstr_eqb x (js s) | None => false end.

Definition truthy (o : option bool) : bool :=
  match o with Some true => true | _ => false end.

(** The [catch] block of [handleSendCommand]. *)
Definition command_failed (now : jsstr) (e : jsstr) : M unit :=
  let errorMessage := js_or_str e (js "网络或服务器连接失败") in
  addLog now (js "错误: " ++ errorMessage) ;;
  toast (mkToast (js "请求失败") (Some errorMessage) true) ;;
  set_connected false ;;
  set_errorMessage (Some errorMessage) ;;
  set_data (Some failed_placeholder).

(** The [try] block of [handleSendCommand] after the request. *)
Definition command_response (now : jsstr) (r : FetchResult) : M unit :=
  x <- await_response r ;;
  let '(ok, _, data) := x in
  when (negb ok) (throw (js_or (r_message data) (js "未知服务器错误"))) ;;
  forEach (match r_detailed_results data with Some l => l | None => [] end)
    (fun res => addLog now (result_line res)) ;;
  match r_robot_status data with
  | Some rs => set_connected true ;; set_errorMessage None ;; set_data (Some rs)
  | None => ret tt
  end ;;
  if status_is data "success" && truthy (r_motion_started data) then
    toast (mkToast (js "成功") (Some (js "运动已启动，开始轮询状态。")) false) ;;
    startPolling now 1000
  else if status_is data "error" then
    toast (mkToast (js "指令错误") (r_message data) true)
  else
    toast (mkToast (js "操作完成") (Some (js "指令已执行，但未启动运动。")) false).

(** [handleSendCommand], after its [await]s. *)
Definition handleSendCommand_resume (now : jsstr) (r : FetchResult) : M unit :=
  finally (try_catch (command_response now r) (command_failed now))
          (set_isLoading false).

(** [async function pollRobotStatus()], up to [await fetch(..)]. *)
Definition pollRobotStatus_start : M unit :=
  l <- gets (fun s => rs_isLoading (robotState s)) ;;
  when l (set_isLoading true) ;;
  fetch ApiStatus PStatus.

(** The message of the [TypeError] of [data.robot_status.run_status] when
    [robot_status] is absent. *)
Definition undefined_run_status : jsstr :=
  js "Cannot read properties of undefined (reading 'run_status')".

Definition stop_condition (rs : RobotStatusData) : bool :=
  jsstr_eqb (run_status rs) STOPPED
  && match alarm_code rs with Some c => c =? 0 | None => false end.

(** The [try] block of [pollRobotStatus] after the request. *)
Definition status_response (now : jsstr) (r : FetchResult) : M unit :=
  x <- await_response r ;;
  let '(ok, http, data) := x in
  when (negb ok)
    (throw (js_or (r_message data)
              (js "服务器响应错误 (HTTP " ++ js_of_Z http ++ js ")"))) ;;
  if status_is data "success" then
    set_connected true ;;
    set_errorMessage None ;;
    set_data (r_robot_status data) ;;
    match r_robot_status data with
    | Some rs =>
        when (stop_condition rs)
          (stopPolling ;;
           addLog now (js "机器人运动完成，状态轮询已自动停止。"))
    | None => throw undefined_run_status
    end
  else throw (js_or (r_message data) (js "获取状态失败")).

(** The [catch] block of [pollRobotStatus]. *)
Definition status_failed (now : jsstr) (e : jsstr) : M unit :=
  addLog now (js "状态轮询请求失败: " ++ e) ;;
  set_connected false ;;
  set_errorMessage (Some (js_or_str e (js "无法连接到后端服务。"))) ;;
  set_data (Some failed_placeholder) ;;
  stopPolling.

(** [pollRobotStatus], after its [await]s. *)
Definition pollRobotStatus_resume (now : jsstr) (r : FetchResult) : M unit :=
  finally (try_catch (status_response now r) (status_failed now))
          (set_rs_isLoading false ;; set_isLoading false).

(** [onMounted(..)] *)
Definition onMounted (now : jsstr) : M unit :=
  addLog now (js "欢迎使用机器人控制系统。") ;;
  set_rs_isLoading true ;;
  pollRobotStatus_start.

(** [onUnmounted(..)] *)
Definition onUnmounted : M unit := stopPolling.

(* ------------------------------------------------------------------ *)
(** ** The browser: events and reachable states *)

Inductive Event :=
| EvMount (now : jsstr)                           (* the view is mounted *)
| EvSend (now command : jsstr)                    (* CommandPanel emits send-command *)
| EvTick (h : Z)                                  (* interval [h] fires *)
| EvResolve (i : nat) (now : jsstr) (r : FetchResult)  (* i-th pending fetch settles *)
| EvUnmount.

Definition resume (p : Pending) (now : jsstr) (r : FetchResult) : M unit :=
  match p with
  | PCommand => handleSendCommand_resume now r
  | PStatus => pollRobotStatus_resume now r
  end.

Fixpoint remove_nth {A} (i : nat) (l : list A) : list A :=
  match i, l with
  | _, [] => []
  | O, _ :: r => r
  | S j, x :: r => x :: remove_nth j r
  end.

Definition set_inflight (l : list Pending) (s : St) : St :=
  mkSt (robotState s) (logMessages s) (isLoading s) (pollingInterval s)
       (timers s) (next_timer s) (toasts s) (requests s) l.

Definition step (s : St) (ev : Event) : option St :=
  match ev with
  | EvMount now => Some (exec (onMounted now) s)
  | EvSend now command => Some (exec (handleSendCommand_start now command) s)
  | EvTick h =>
      if existsb (Z.eqb h) (timers s) then Some (exec pollRobotStatus_start s)
      else None
  | EvResolve i now r =>
      match nth_error (inflight s) i with
      | Some p => Some (exec (resume p now r) (set_inflight (remove_nth i (inflight s)) s))
      | None => None
      end
  | EvUnmount => Some (exec onUnmounted s)
  end.

Inductive reachable : St -> Prop :=
| reachable_init : reachable init
| reachable_step s ev s' : reachable s -> step s ev = Some s' -> reachable s'.

Fixpoint run (s : St) (evs : list Event) : option St :=
  match evs with
  | [] => Some s
  | ev :: r => match step s ev with Some s' => run s' r | None => None end
  end.

(* ------------------------------------------------------------------ *)
(** ** The status panel that renders the state *)

(** Badge variants of [StatusPanel.vue]. *)
Inductive Variant := VDefault | VSecondary | VOutline | VDestructive.

(** [runStatusVariant]; [None] when [state.data] is undefined and reading
    [run_status] throws. *)
Definition runStatusVariant (st : RobotState) : option Variant :=
  if negb (connected st) then Some VDestructive
  else match data st with
       | None => None
       | Some d =>
           let r := run_status d in
           Some (if jsstr_eqb r (js "正在运行") then VDefault
                 else if jsstr_eqb r (js "暂停") then VSecondary
                 else if jsstr_eqb r STOPPED then VOutline
                 else VDestructive)
       end.

(** [alarmStatusVariant] *)
Definition alarmStatusVariant (st : RobotState) : option Variant :=
  if negb (connected st) then Some VDestructive
  else match data st with
       | None => None
       | Some d => Some (match alarm_code d with
                         | Some c => if c =? 0 then VSecondary else VDestructive
                         | None => VDestructive
                         end)
       end.

(** The text of the connection indicator. *)
Definition connection_label (st : RobotState) : jsstr :=
  if rs_isLoading st then js "加载中..."
  else if connected st then js "已连接" else js "已断开".

(** The error banner: [v-if="!state.connected && state.errorMessage"]
    (null and the empty string are falsy); [Some m] when shown with [m]. *)
Definition error_banner (st : RobotState) : option jsstr :=
  if connected st then None
  else match errorMessage st with
       | Some (c :: r) => Some (c :: r)
       | _ => None
       end.

(** The GV0 cell: [typeof gv0_value === 'number' ? gv0_value.toFixed(2) : 'N/A']
    (numbers of the model are integral, so [toFixed(2)] appends ".00"). *)
Definition gv0_text (g : Gv) : jsstr :=
  match g with
  | GvNum z => js_of_Z z ++ js ".00"
  | _ => js "N/A"
  end.

(** [logs.slice(0, 100)] *)
Definition visible_logs (logs : list jsstr) : list jsstr := firstn 100 logs.


(* ------------------------------------------------------------------ *)
(** ** Concrete scenarios *)

Definition T0 : jsstr := js "10:00:00".

Definition snap (run : string) : RobotStatusData :=
  mkRobotStatusData (js "自动") (js run) (js "正常") (Some 0) (GvNum 0).

Definition body (status : string) (motion : option bool) (rs : option RobotStatusData)
  (res : option (list DetailedResult)) : RespBody :=
  mkRespBody (Some (js status)) None motion rs res.

(** Mount, the first poll answers "running", then "MOVE J1 30" starts motion. *)
Definition scenario_A : list Event :=
  [EvMount T0;
   EvResolve 0 T0 (Response true 200 (Body (body "success" None (Some (snap "正在运行")) None)));
   EvSend T0 (js "MOVE J1 30");
   EvResolve 0 T0 (Response true 200
     (Body (body "success" (Some true) (Some (snap "正在运行"))
              (Some [mkDetailedResult (js "MOVE J1 30") (js "success") (js "ok")]))))].

Example scenario_A_polls :
  match run init scenario_A with
  | Some s => pollingInterval s = Some 1 /\ timers s = [1]
              /\ connected (robotState s) = true /\ isLoading s = false
              /\ length (logMessages s) = 4%nat
  | None => False
  end.
Proof. vm_compute. repeat split; reflexivity. Qed.

(** Scenario B: the next tick answers "stopped". *)
Example scenario_B_stops :
  match run init (scenario_A ++
          [EvTick 1;
           EvResolve 0 T0 (Response true 200 (Body (body "success" None (Some (snap "停止")) None)))]) with
  | Some s => pollingInterval s = None /\ timers s = []
              /\ data (robotState s) = Some (snap "停止")
              /\ length (logMessages s) = 5%nat
  | None => False
  end.
Proof. vm_compute. repeat split; reflexivity. Qed.

(** Scenario C: the next tick gets an HTTP 500. *)
Example scenario_C_fails :
  match run init (scenario_A ++
          [EvTick 1; EvResolve 0 T0 (Response false 500 (Malformed (js "Unexpected token")))]) with
  | Some s => pollingInterval s = None /\ timers s = []
              /\ connected (robotState s) = false
              /\ errorMessage (robotState s) = Some (js "Unexpected token")
              /\ length (logMessages s) = 5%nat
  | None => False
  end.
Proof. vm_compute. repeat split; reflexivity. Qed.

(** Scenario D: blank input. *)
Example scenario_D_blank :
  step init (EvSend T0 (js "   ")) =
  Some (mkSt initial_robotState [] false None [] 1 [validation_toast] [] []).
Proof. vm_compute. reflexivity. Qed.

Lemma reachable_run :
  forall evs s s', reachable s -> run s evs = Some s' -> reachable s'.
Proof.
  induction evs as [|ev evs IH]; cbn; intros s s' Hr E.
  - injection E as <-. exact Hr.
  - destruct (step s ev) as [s1|] eqn:Es; [|discriminate].
    exact (IH s1 s' (reachable_step s ev s1 Hr Es) E).
Qed.

(** The view with a polling session running (after scenario A). *)
Definition polling : St := match run init scenario_A with Some s => s | None => init end.

(** One tick later: the status fetch of the running session is pending. *)
Definition ticking : St :=
  match run init (scenario_A ++ [EvTick 1]) with Some s => s | None => init end.

Lemma reachable_polling : reachable polling.
Proof. apply (reachable_run scenario_A init); [exact reachable_init | vm_compute; reflexivity]. Qed.

Lemma reachable_ticking : reachable ticking.
Proof.
  apply (reachable_run (scenario_A ++ [EvTick 1]) init);
    [exact reachable_init | vm_compute; reflexivity].
Qed.

(* ------------------------------------------------------------------ *)
(** ** Stopping and blank input *)

Arguments js : simpl never.

Ltac unfold_M :=
  unfold exec, bind, ret, throw, modify, gets, when, try_catch, finally,
    set_pollingInterval, clearInterval, setInterval, set_isLoading,
    set_rs_isLoading, set_connected, set_errorMessage, set_data,
    set_robotState, toast, addLog, fetch in *.

(** C9: [stopPolling] after [stopPolling] is [stopPolling]; it never logs,
    and when no session is active (no interval id stored) it changes
    nothing at all. *)
Theorem stopPolling_twice_is_once :
  forall s,
    exec stopPolling (exec stopPolling s) = exec stopPolling s
    /\ logMessages (exec stopPolling s) = logMessages s
    /\ (pollingInterval s = None -> exec stopPolling s = s).
Proof.
  intros [rs logs il [h|] tms nt ts rq inf]; unfold stopPolling; unfold_M; cbn.
  - destruct (h =? 0) eqn:E; cbn; rewrite ?E; repeat split; intros; discriminate.
  - repeat split.
Qed.

Lemma stopPolling_twice_is_once_witness :
  pollingInterval init = None /\ exec stopPolling init = init.
Proof.
  split; [reflexivity|].
  apply (proj2 (proj2 (stopPolling_twice_is_once init))). reflexivity.
Defined.

Lemma drop_ws_all_ws : forall l, forallb is_js_ws l = true -> drop_ws l = [].
Proof.
  induction l as [|c l IH]; cbn; [reflexivity|].
  intros H. apply andb_prop in H as [Hc Hl]. rewrite Hc. auto.
Qed.

(** C7: a command that is empty or made only of whitespace issues no fetch
    (no request, no pending continuation) and changes nothing but the toasts,
    which get the validation message. *)
Theorem blank_command_only_toasts :
  forall now command s,
    forallb is_js_ws command = true ->
    exec (handleSendCommand_start now command) s =
    mkSt (robotState s) (logMessages s) (isLoading s) (pollingInterval s)
         (timers s) (next_timer s) (validation_toast :: toasts s)
         (requests s) (inflight s).
Proof.
  intros now command s H. unfold handleSendCommand_start, js_trim.
  rewrite (drop_ws_all_ws _ H). reflexivity.
Qed.

Lemma blank_command_only_toasts_witness :
  forallb is_js_ws (js "   ") = true
  /\ exec (handleSendCommand_start T0 (js "   ")) init =
     mkSt (robotState init) (logMessages init) (isLoading init) (pollingInterval init)
          (timers init) (next_timer init) (validation_toast :: toasts init)
          (requests init) (inflight init).
Proof.
  split; [vm_compute; reflexivity|].
  apply blank_command_only_toasts. vm_compute. reflexivity.
Defined.

(* ------------------------------------------------------------------ *)
(** ** Invariants of computations *)

Section Preserve.
Variable P : St -> Prop.

(** [m] keeps [P] whether it returns or throws. *)
Definition preserves {A} (m : M A) : Prop := forall s, P s -> P (snd (m s)).

Lemma preserves_ret {A} (a : A) : preserves (ret a).
Proof. intros s H. exact H. Qed.

Lemma preserves_throw {A} (e : jsstr) : preserves (A := A) (throw e).
Proof. intros s H. exact H. Qed.

Lemma preserves_gets {A} (f : St -> A) : preserves (gets f).
Proof. intros s H. exact H. Qed.

Lemma preserves_bind {A B} (m : M A) (k : A -> M B) :
  preserves m -> (forall a, preserves (k a)) -> preserves (bind m k).
Proof.
  intros Hm Hk s H. unfold bind.
  specialize (Hm s H). destruct (m s) as [[a|e] s'] eqn:E; cbn in *;
    [apply (Hk a s' Hm) | exact Hm].
Qed.

Lemma preserves_try_catch (m : M unit) (h : jsstr -> M unit) :
  preserves m -> (forall e, preserves (h e)) -> preserves (try_catch m h).
Proof.
  intros Hm Hh s H. unfold try_catch.
  specialize (Hm s H). destruct (m s) as [[a|e] s'] eqn:E; cbn in *;
    [exact Hm | apply (Hh e s' Hm)].
Qed.

Lemma preserves_finally (m f : M unit) :
  preserves m -> preserves f -> preserves (finally m f).
Proof.
  intros Hm Hf s H. unfold finally.
  specialize (Hm s H). destruct (m s) as [r s'] eqn:E; cbn in *.
  specialize (Hf s' Hm). destruct (f s') as [[a|e] s''] eqn:E'; cbn in *; exact Hf.
Qed.

Lemma preserves_forEach {A} (l : list A) (f : A -> M unit) :
  (forall x, preserves (f x)) -> preserves (forEach l f).
Proof.
  intros Hf. induction l as [|x l IH]; cbn.
  - apply preserves_ret.
  - apply preserves_bind; [apply Hf | intros _; exact IH].
Qed.

Lemma preserves_when (b : bool) (m : M unit) :
  preserves m -> preserves (when b m).
Proof. destruct b; [auto | intros _; apply preserves_ret]. Qed.
End Preserve.

Arguments preserves P {A} m.

(** Splits a computation into its primitive steps; [leaf] closes those and
    [pair] the sequences that must be taken together. *)
Ltac preserve_with2 pair leaf :=
  repeat match goal with
  | |- preserves _ (ret _) => apply preserves_ret
  | |- preserves _ (throw _) => apply preserves_throw
  | |- preserves _ (gets _) => apply preserves_gets
  | |- preserves _ (try_catch _ _) => apply preserves_try_catch; [|intro]
  | |- preserves _ (finally _ _) => apply preserves_finally
  | |- preserves _ (forEach _ _) => apply preserves_forEach; intro
  | |- preserves _ (when _ _) => apply preserves_when
  | |- preserves _ (if ?b then _ else _) => destruct b
  | |- preserves _ (match ?x with _ => _ end) => destruct x
  | |- preserves _ (bind _ _) => first [ pair | apply preserves_bind; [|intro] ]
  | |- preserves _ _ => solve [leaf]
  end.

Ltac preserve_with leaf := preserve_with2 fail leaf.

(** Stores whose [timers] are exactly the stored interval id, a truthy one. *)
Definition session_inv (s : St) : Prop :=
  timers s = match pollingInterval s with Some h => [h] | None => [] end
  /\ (forall h, pollingInterval s = Some h -> 0 < h < next_timer s)
  /\ 0 < next_timer s.

Lemma stopPolling_clears :
  forall s, session_inv s ->
    exec stopPolling s =
    mkSt (robotState s) (logMessages s) (isLoading s) None [] (next_timer s)
         (toasts s) (requests s) (inflight s).
Proof.
  intros [rs logs il [h|] tms nt ts rq inf] (Ht & Hh & Hn); cbn in *; subst tms;
    unfold stopPolling; unfold_M; cbn; [|reflexivity].
  specialize (Hh h eq_refl).
  replace (h =? 0) with false by lia. cbn.
  destruct (Z.eq_dec h h); [reflexivity | congruence].
Qed.

Lemma session_stopPolling : preserves session_inv stopPolling.
Proof.
  intros s H. change (session_inv (exec stopPolling s)).
  rewrite (stopPolling_clears s H). destruct H as (_ & _ & Hn).
  split; [reflexivity | split; [intros h E; discriminate | exact Hn]].
Qed.

Lemma startPolling_state :
  forall now interval s, session_inv s ->
    exec (startPolling now interval) s =
    mkSt (robotState s)
         (log_entry now (js "状态轮询已启动，间隔: " ++ js_of_Z interval ++ js "ms")
            :: logMessages s)
         (isLoading s) (Some (next_timer s)) [next_timer s] (next_timer s + 1)
         (toasts s) (requests s) (inflight s).
Proof.
  intros now interval s H. unfold startPolling.
  change (exec (stopPolling ;; _) s) with (exec (bind stopPolling (fun _ =>
    addLog now (js "状态轮询已启动，间隔: " ++ js_of_Z interval ++ js "ms") ;;
    h <- setInterval ;; set_pollingInterval (Some h))) s).
  unfold exec at 1, bind at 1.
  pose proof (stopPolling_clears s H) as E. unfold exec in E.
  destruct (stopPolling s) as [[[]|e] s1] eqn:Es; cbn in E; subst s1.
  - reflexivity.
  - exfalso. revert Es. unfold stopPolling; unfold_M.
    destruct (pollingInterval s) as [h|]; [destruct (h =? 0)|]; discriminate.
Qed.

Lemma session_startPolling now interval :
  preserves session_inv (startPolling now interval).
Proof.
  intros s H. change (session_inv (exec (startPolling now interval) s)).
  rewrite (startPolling_state now interval s H). destruct H as (_ & _ & Hn).
  unfold session_inv; cbn.
  split; [reflexivity | split; [intros h E; injection E as <-; lia | lia]].
Qed.

Ltac session_leaf :=
  first [ apply session_stopPolling | apply session_startPolling
        | intros [? ? ? ? ? ? ? ? ?] ?; unfold_M; unfold session_inv in *; cbn in *;
          assumption ].

Ltac unfold_handlers :=
  unfold resume, onMounted, onUnmounted, handleSendCommand_start,
    handleSendCommand_resume, pollRobotStatus_resume, command_response,
    command_failed, status_response, status_failed, pollRobotStatus_start,
    await_response.

(** Every computation run by an event keeps [session_inv]. *)
Lemma session_handlers :
  (forall now, preserves session_inv (onMounted now))
  /\ (forall now c, preserves session_inv (handleSendCommand_start now c))
  /\ preserves session_inv pollRobotStatus_start
  /\ (forall p now r, preserves session_inv (resume p now r))
  /\ preserves session_inv onUnmounted.
Proof.
  split; [|split; [|split; [|split]]]; [intros t | intros t c | | intros p t r; destruct p | ];
    unfold_handlers; preserve_with session_leaf.
Qed.

(** Every event of the browser keeps [session_inv]. *)
Lemma session_step :
  forall s ev s', session_inv s -> step s ev = Some s' -> session_inv s'.
Proof.
  intros s ev s' H Hstep.
  destruct session_handlers as (H1 & H2 & H3 & H4 & H5).
  destruct ev as [now|now c|h|i now r|]; unfold step in Hstep.
  - injection Hstep as <-. exact (H1 now s H).
  - injection Hstep as <-. exact (H2 now c s H).
  - destruct (existsb (Z.eqb h) (timers s)); [|discriminate].
    injection Hstep as <-. exact (H3 s H).
  - destruct (nth_error (inflight s) i) as [p|]; [|discriminate].
    injection Hstep as <-. apply H4. exact H.
  - injection Hstep as <-. exact (H5 s H).
Qed.

Lemma session_reachable : forall s, reachable s -> session_inv s.
Proof.
  induction 1 as [|s ev s' _ IH Hstep].
  - repeat split; cbn; try discriminate; lia.
  - exact (session_step s ev s' IH Hstep).
Qed.

(** C3: in every reachable state at most one interval is active, and
    [startPolling] first clears the stored interval, logs the interval
    length once, and leaves exactly one active interval: the new one. *)
Theorem startPolling_single_session :
  forall s, reachable s ->
    (length (timers s) <= 1)%nat
    /\ forall now interval,
         let s' := exec (startPolling now interval) s in
         timers s' = [next_timer s]
         /\ pollingInterval s' = Some (next_timer s)
         /\ (forall h, pollingInterval s = Some h -> ~ In h (timers s'))
         /\ logMessages s' =
            log_entry now (js "状态轮询已启动，间隔: " ++ js_of_Z interval ++ js "ms")
              :: logMessages s.
Proof.
  intros s Hr. pose proof (session_reachable s Hr) as Hs.
  split.
  - destruct Hs as (Ht & _). rewrite Ht. destruct (pollingInterval s); cbn; lia.
  - intros now interval s'. subst s'.
    rewrite (startPolling_state now interval s Hs); cbn.
    repeat split.
    intros h Eh [E|[]]. destruct Hs as (_ & Hh & _). specialize (Hh h Eh). lia.
Qed.

Lemma startPolling_single_session_witness :
  reachable polling /\ pollingInterval polling = Some 1 /\ timers polling = [1]
  /\ timers (exec (startPolling T0 1000) polling) = [next_timer polling]
  /\ ~ In 1 (timers (exec (startPolling T0 1000) polling)).
Proof.
  destruct (startPolling_single_session polling reachable_polling) as (_ & H).
  destruct (H T0 1000) as (Ht & _ & Hh & _).
  split; [exact reachable_polling|].
  split; [vm_compute; reflexivity|]. split; [vm_compute; reflexivity|].
  split; [exact Ht|].
  apply Hh. vm_compute. reflexivity.
Defined.

(* ------------------------------------------------------------------ *)
(** ** [connected] and [errorMessage] *)

Definition conn_inv (s : St) : Prop :=
  connected (robotState s) = true -> errorMessage (robotState s) = None.

Lemma conn_set_true_then_clear (k : M unit) :
  preserves conn_inv k ->
  preserves conn_inv (set_connected true ;; set_errorMessage None ;; k).
Proof.
  intros Hk s _. unfold bind at 1 2. apply Hk.
  unfold conn_inv; reflexivity.
Qed.

Lemma conn_set_false_then_message (e : option jsstr) (k : M unit) :
  preserves conn_inv k ->
  preserves conn_inv (set_connected false ;; set_errorMessage e ;; k).
Proof.
  intros Hk s _. unfold bind at 1 2. apply Hk.
  unfold conn_inv; cbn; discriminate.
Qed.

Ltac conn_pair :=
  first [ apply conn_set_true_then_clear | apply conn_set_false_then_message ].

Ltac conn_leaf :=
  intros [[? ? ? ?] ? ? ? ? ? ? ? ?] ?; unfold_M; unfold conn_inv in *; cbn in *;
  first [ assumption | intros; reflexivity | intros; discriminate ].

Lemma conn_stopPolling : preserves conn_inv stopPolling.
Proof. unfold stopPolling; preserve_with conn_leaf. Qed.

Lemma conn_startPolling now interval : preserves conn_inv (startPolling now interval).
Proof.
  unfold startPolling.
  preserve_with ltac:(first [ apply conn_stopPolling | conn_leaf ]).
Qed.

Lemma conn_handlers :
  (forall now, preserves conn_inv (onMounted now))
  /\ (forall now c, preserves conn_inv (handleSendCommand_start now c))
  /\ preserves conn_inv pollRobotStatus_start
  /\ (forall p now r, preserves conn_inv (resume p now r))
  /\ preserves conn_inv onUnmounted.
Proof.
  split; [|split; [|split; [|split]]]; [intros t | intros t c | | intros p t r; destruct p | ];
    unfold_handlers;
    preserve_with2 conn_pair
      ltac:(first [ apply conn_stopPolling | apply conn_startPolling | conn_leaf ]).
Qed.

(** C4: [connected = true] implies [errorMessage = null]: it holds
    initially, every event (a dispatch or a poll tick, whether it starts or
    its response arrives, succeeding or failing; mount; unmount) keeps it,
    and so do [startPolling] and [stopPolling]; hence it holds in every
    reachable state. *)
Theorem connected_no_error :
  conn_inv init
  /\ (forall s ev s', conn_inv s -> step s ev = Some s' -> conn_inv s')
  /\ (forall now interval, preserves conn_inv (startPolling now interval))
  /\ preserves conn_inv stopPolling
  /\ (forall s, reachable s ->
        connected (robotState s) = true -> errorMessage (robotState s) = None).
Proof.
  destruct conn_handlers as (H1 & H2 & H3 & H4 & H5).
  assert (Hstep : forall s ev s', conn_inv s -> step s ev = Some s' -> conn_inv s').
  { intros s ev s' H Hs.
    destruct ev as [now|now c|h|i now r|]; unfold step in Hs.
    - injection Hs as <-. exact (H1 now s H).
    - injection Hs as <-. exact (H2 now c s H).
    - destruct (existsb (Z.eqb h) (timers s)); [|discriminate].
      injection Hs as <-. exact (H3 s H).
    - destruct (nth_error (inflight s) i) as [p|]; [|discriminate].
      injection Hs as <-. apply H4. exact H.
    - injection Hs as <-. exact (H5 s H). }
  split; [intros E; discriminate E|].
  split; [exact Hstep|].
  split; [exact conn_startPolling|].
  split; [exact conn_stopPolling|].
  induction 1 as [|s ev s' _ IH Hs]; [intros E; discriminate E|].
  exact (Hstep s ev s' IH Hs).
Qed.

Lemma connected_no_error_witness :
  reachable polling /\ connected (robotState polling) = true
  /\ errorMessage (robotState polling) = None
  /\ exists s', step polling (EvTick 1) = Some s' /\ conn_inv s'.
Proof.
  destruct connected_no_error as (_ & Hstep & _ & _ & Hreach).
  assert (Hc : connected (robotState polling) = true) by (vm_compute; reflexivity).
  split; [exact reachable_polling|]. split; [exact Hc|].
  split; [exact (Hreach polling reachable_polling Hc)|].
  eexists; split; [reflexivity|].
  apply (Hstep polling (EvTick 1)); [|reflexivity].
  intros _. exact (Hreach polling reachable_polling Hc).
Defined.

(* ------------------------------------------------------------------ *)
(** ** A poll response *)

Lemma jsstr_eqb_refl : forall a, jsstr_eqb a a = true.
Proof. intros a. unfold jsstr_eqb. destruct (list_eq_dec Z.eq_dec a a); congruence. Qed.

Lemma stopPolling_run :
  forall s, session_inv s ->
    stopPolling s =
    (Ok tt, mkSt (robotState s) (logMessages s) (isLoading s) None [] (next_timer s)
                 (toasts s) (requests s) (inflight s)).
Proof.
  intros s H. pose proof (stopPolling_clears s H) as E. unfold exec in E.
  destruct (stopPolling s) as [[[]|e] s1] eqn:Es; cbn in E; subst s1; [reflexivity|].
  exfalso. revert Es. unfold stopPolling; unfold_M.
  destruct (pollingInterval s) as [h|]; [destruct (h =? 0)|]; discriminate.
Qed.

(** A poll response that the code treats as a success: HTTP 2xx, a JSON body
    whose [status] is "success", and a [robot_status] to read. *)
Definition poll_success (r : FetchResult) : bool :=
  match r with
  | Response true _ (Body b) =>
      status_is b "success"
      && match r_robot_status b with Some _ => true | None => false end
  | _ => false
  end.

Definition COMPLETED : jsstr := js "机器人运动完成，状态轮询已自动停止。".

(** C1 (as amended): when a pending status fetch gets an HTTP 2xx response
    whose body has [status] "success" and a [robot_status] with [run_status]
    "stopped" (the backend's 停止) and [alarm_code] 0, the interval is
    cleared (no timer is left to issue another query), exactly the
    completion entry is logged, and the snapshot stays as [data], with
    [connected = true] and [errorMessage = null]. *)
Theorem poll_stop_condition_ends_session :
  forall s i now http b rs,
    reachable s ->
    nth_error (inflight s) i = Some PStatus ->
    r_status b = Some (js "success") ->
    r_robot_status b = Some rs ->
    run_status rs = STOPPED -> alarm_code rs = Some 0 ->
    exists s', step s (EvResolve i now (Response true http (Body b))) = Some s'
      /\ pollingInterval s' = None /\ timers s' = []
      /\ logMessages s' = log_entry now COMPLETED :: logMessages s
      /\ data (robotState s') = Some rs
      /\ connected (robotState s') = true
      /\ errorMessage (robotState s') = None.
Proof.
  intros s i now http b rs Hr Hi Hst Hrs Hrun Hal.
  pose proof (session_reachable s Hr) as (Ht & Hh & Hn).
  destruct b as [st msg ms rsd dr]; cbn in Hst, Hrs; subst st rsd.
  assert (Hstop : stop_condition rs = true).
  { unfold stop_condition. rewrite Hrun, Hal, jsstr_eqb_refl. reflexivity. }
  assert (Hsucc : status_is (mkRespBody (Some (js "success")) msg ms (Some rs) dr) "success" = true).
  { unfold status_is; cbn. apply jsstr_eqb_refl. }
  unfold step; rewrite Hi; eexists; split; [reflexivity|].
  unfold_handlers; unfold_M; cbn - [stopPolling status_is stop_condition].
  rewrite Hsucc, Hstop; cbn - [stopPolling].
  rewrite stopPolling_run by exact (conj Ht (conj Hh Hn)); cbn.
  unfold COMPLETED; repeat split.
Qed.

(** The view right after mounting: the first status fetch is pending. *)
Definition mounted : St := exec (onMounted T0) init.

Lemma reachable_mounted : reachable mounted.
Proof. apply (reachable_step init (EvMount T0)); [exact reachable_init | reflexivity]. Qed.

Definition stopped_body : RespBody := body "success" None (Some (snap "停止")) None.

Lemma poll_stop_condition_ends_session_witness :
  pollingInterval ticking = Some 1 /\ timers ticking = [1]
  /\ exists s', step ticking (EvResolve 0 T0 (Response true 200 (Body stopped_body))) = Some s'
                /\ pollingInterval s' = None /\ timers s' = []
                /\ data (robotState s') = Some (snap "停止").
Proof.
  split; [vm_compute; reflexivity|]. split; [vm_compute; reflexivity|].
  destruct (poll_stop_condition_ends_session ticking 0 T0 200 stopped_body (snap "停止")
              reachable_ticking ltac:(vm_compute; reflexivity) eq_refl eq_refl eq_refl eq_refl)
    as (s' & E & Hp & Ht & _ & Hd & _).
  exists s'. split; [exact E | split; [exact Hp | split; [exact Ht | exact Hd]]].
Defined.

(** C1 as stated is refuted: during a session, a tick whose response body
    has [status] "success" and a stopped snapshot with [alarm_code] 0 but
    comes with HTTP 503 is handled as a failure: the interval is cleared,
    but [connected] becomes false and [data] is the failure placeholder, not
    the snapshot. *)
Lemma poll_stop_condition_non2xx_counterexample :
  match run init (scenario_A ++
          [EvTick 1; EvResolve 0 T0 (Response false 503 (Body stopped_body))]) with
  | Some s' => pollingInterval s' = None
               /\ connected (robotState s') = false
               /\ data (robotState s') = Some failed_placeholder
               /\ data (robotState s') <> Some (snap "停止")
  | None => False
  end.
Proof. vm_compute. repeat split. discriminate. Qed.

(** C2: a pending status fetch that ends in anything but a success (a
    rejected fetch, an unparsable body, a non-2xx status, a [status] other
    than "success", or no [robot_status]) leaves [connected = false],
    [errorMessage] the error's message (or the default text when it is
    empty), [data] the failure placeholder, exactly one failure entry
    logged, [loading] false, and the interval cleared. *)
Theorem poll_failure_stops_session :
  forall s i now r,
    reachable s ->
    nth_error (inflight s) i = Some PStatus ->
    poll_success r = false ->
    exists s' m, step s (EvResolve i now r) = Some s'
      /\ connected (robotState s') = false
      /\ errorMessage (robotState s') = Some (js_or_str m (js "无法连接到后端服务。"))
      /\ data (robotState s') = Some failed_placeholder
      /\ logMessages s' = log_entry now (js "状态轮询请求失败: " ++ m) :: logMessages s
      /\ isLoading s' = false
      /\ pollingInterval s' = None /\ timers s' = [].
Proof.
  intros s i now r Hr Hi Hfail.
  pose proof (session_reachable s Hr) as (Ht & Hh & Hn).
  unfold step; rewrite Hi.
  destruct r as [m|ok http [m|b]].
  - exists (exec (resume PStatus now (NetworkError m))
                 (set_inflight (remove_nth i (inflight s)) s)), m.
    split; [reflexivity|].
    unfold_handlers; unfold_M; cbn - [stopPolling].
    rewrite stopPolling_run by exact (conj Ht (conj Hh Hn)); cbn.
    repeat split.
  - exists (exec (resume PStatus now (Response ok http (Malformed m)))
                 (set_inflight (remove_nth i (inflight s)) s)), m.
    split; [reflexivity|].
    unfold_handlers; unfold_M; cbn - [stopPolling].
    rewrite stopPolling_run by exact (conj Ht (conj Hh Hn)); cbn.
    repeat split.
  - destruct ok.
    + cbn in Hfail.
      destruct (status_is b "success") eqn:Es; cbn in Hfail.
      * destruct (r_robot_status b) as [rs|] eqn:Er; [discriminate|].
        exists (exec (resume PStatus now (Response true http (Body b)))
                     (set_inflight (remove_nth i (inflight s)) s)), undefined_run_status.
        split; [reflexivity|].
        unfold_handlers; unfold_M; cbn - [stopPolling status_is].
        rewrite Es, Er; cbn - [stopPolling].
        rewrite stopPolling_run by exact (conj Ht (conj Hh Hn)); cbn.
        repeat split.
      * exists (exec (resume PStatus now (Response true http (Body b)))
                     (set_inflight (remove_nth i (inflight s)) s)),
               (js_or (r_message b) (js "获取状态失败")).
        split; [reflexivity|].
        unfold_handlers; unfold_M; cbn - [stopPolling status_is js_or].
        rewrite Es; cbn - [stopPolling js_or].
        rewrite stopPolling_run by exact (conj Ht (conj Hh Hn)); cbn - [js_or].
        repeat split.
    + exists (exec (resume PStatus now (Response false http (Body b)))
                   (set_inflight (remove_nth i (inflight s)) s)),
             (js_or (r_message b) (js "服务器响应错误 (HTTP " ++ js_of_Z http ++ js ")")).
      split; [reflexivity|].
      unfold_handlers; unfold_M; cbn - [stopPolling js_or js_of_Z].
      rewrite stopPolling_run by exact (conj Ht (conj Hh Hn)); cbn - [js_or js_of_Z].
      repeat split.
Qed.

Lemma poll_failure_stops_session_witness :
  connected (robotState ticking) = true
  /\ pollingInterval ticking = Some 1 /\ timers ticking = [1]
  /\ exists s' m, step ticking (EvResolve 0 T0 (NetworkError (js "Failed to fetch"))) = Some s'
                  /\ connected (robotState s') = false
                  /\ data (robotState s') = Some failed_placeholder
                  /\ pollingInterval s' = None /\ timers s' = []
                  /\ logMessages s' =
                     log_entry T0 (js "状态轮询请求失败: " ++ m) :: logMessages ticking.
Proof.
  split; [vm_compute; reflexivity|].
  split; [vm_compute; reflexivity|]. split; [vm_compute; reflexivity|].
  destruct (poll_failure_stops_session ticking 0 T0 (NetworkError (js "Failed to fetch"))
              reachable_ticking ltac:(vm_compute; reflexivity) eq_refl)
    as (s' & m & E & Hc & _ & Hd & Hl & _ & Hp & Ht).
  exists s', m.
  split; [exact E | split; [exact Hc | split; [exact Hd | split; [exact Hp | split; [exact Ht | exact Hl]]]]].
Defined.

(* ------------------------------------------------------------------ *)
(** ** A command response *)

(** A dispatch whose fetch rejects, whose body does not parse, or whose
    status is not 2xx: the paths that reach the [catch] block. *)
Definition dispatch_fails (r : FetchResult) : bool :=
  match r with
  | Response true _ (Body _) => false
  | _ => true
  end.

Definition failure_toast (m : jsstr) : Toast :=
  mkToast (js "请求失败") (Some (js_or_str m (js "网络或服务器连接失败"))) true.

(** C5 (as amended): a failed dispatch sets [connected = false],
    [errorMessage] to the error's message (or the default text), [data] to
    the placeholder whose [mode], [run_status] and [alarm_status] are
    "failed" (失败) while [gv0_value] is 'N/A' and [alarm_code] absent, logs
    exactly one error entry, shows one destructive toast, clears [loading],
    and leaves the polling state as it was (it starts no session). *)
Theorem dispatch_failure_placeholder :
  forall s i now r,
    nth_error (inflight s) i = Some PCommand ->
    dispatch_fails r = true ->
    exists s' m, step s (EvResolve i now r) = Some s'
      /\ connected (robotState s') = false
      /\ errorMessage (robotState s') = Some (js_or_str m (js "网络或服务器连接失败"))
      /\ data (robotState s') = Some failed_placeholder
      /\ mode failed_placeholder = FAILED /\ run_status failed_placeholder = FAILED
      /\ alarm_status failed_placeholder = FAILED
      /\ gv0_value failed_placeholder = GvStr (js "N/A")
      /\ alarm_code failed_placeholder = None
      /\ logMessages s' =
         log_entry now (js "错误: " ++ js_or_str m (js "网络或服务器连接失败")) :: logMessages s
      /\ toasts s' = failure_toast m :: toasts s
      /\ isLoading s' = false
      /\ pollingInterval s' = pollingInterval s /\ timers s' = timers s.
Proof.
  intros s i now r Hi Hfail.
  unfold step; rewrite Hi.
  destruct r as [m|ok http [m|b]].
  - exists (exec (resume PCommand now (NetworkError m))
                 (set_inflight (remove_nth i (inflight s)) s)), m.
    split; [reflexivity|]. unfold_handlers; unfold_M; cbn.
    repeat split.
  - exists (exec (resume PCommand now (Response ok http (Malformed m)))
                 (set_inflight (remove_nth i (inflight s)) s)), m.
    split; [reflexivity|]. unfold_handlers; unfold_M; cbn.
    repeat split.
  - destruct ok; [discriminate|].
    exists (exec (resume PCommand now (Response false http (Body b)))
                 (set_inflight (remove_nth i (inflight s)) s)),
           (js_or (r_message b) (js "未知服务器错误")).
    split; [reflexivity|]. unfold_handlers; unfold_M; cbn - [js_or].
    repeat split.
Qed.

(** The view with a dispatch of "MOVE J1 30" in flight, after the mount poll. *)
Definition sending : St := exec (handleSendCommand_start T0 (js "MOVE J1 30")) mounted.

Lemma dispatch_failure_placeholder_witness :
  exists s' m, step sending (EvResolve 0 T0 (NetworkError (js "Failed to fetch"))) = Some s'
               /\ data (robotState s') = Some failed_placeholder
               /\ logMessages s' =
                  log_entry T0 (js "错误: " ++ js_or_str m (js "网络或服务器连接失败"))
                    :: logMessages sending.
Proof.
  destruct (dispatch_failure_placeholder sending 0 T0 (NetworkError (js "Failed to fetch"))
              eq_refl eq_refl)
    as (s' & m & E & _ & _ & Hd & _ & _ & _ & _ & _ & Hl & _).
  exists s', m. split; [exact E | split; [exact Hd | exact Hl]].
Defined.

(** C5 as stated is refuted: after a rejected dispatch fetch, [data] is the
    placeholder whose [gv0_value] is 'N/A', not marked "failed". *)
Lemma dispatch_failure_gv0_counterexample :
  match step sending (EvResolve 0 T0 (NetworkError (js "Failed to fetch"))) with
  | Some s' => data (robotState s') = Some failed_placeholder
               /\ gv0_value failed_placeholder <> GvStr FAILED
  | None => False
  end.
Proof. vm_compute. split; [reflexivity | discriminate]. Qed.

Lemma forEach_addLog :
  forall (f : DetailedResult -> jsstr) now l s,
    forEach l (fun res => addLog now (f res)) s =
    (Ok tt, mkSt (robotState s) (rev (map (fun res => log_entry now (f res)) l) ++ logMessages s)
                 (isLoading s) (pollingInterval s) (timers s) (next_timer s)
                 (toasts s) (requests s) (inflight s)).
Proof.
  intros f now l. induction l as [|x l IH]; intros s; cbn.
  - destruct s; reflexivity.
  - rewrite IH. cbn. rewrite <- app_assoc. reflexivity.
Qed.

Lemma bind_forEach_addLog :
  forall (f : DetailedResult -> jsstr) now l {B} (k : unit -> M B) s,
    bind (forEach l (fun res => addLog now (f res))) k s =
    k tt (mkSt (robotState s) (rev (map (fun res => log_entry now (f res)) l) ++ logMessages s)
               (isLoading s) (pollingInterval s) (timers s) (next_timer s)
               (toasts s) (requests s) (inflight s)).
Proof. intros. unfold bind at 1. rewrite forEach_addLog. reflexivity. Qed.

Lemma startPolling_run :
  forall now interval s, session_inv s ->
    startPolling now interval s =
    (Ok tt, mkSt (robotState s)
         (log_entry now (js "状态轮询已启动，间隔: " ++ js_of_Z interval ++ js "ms")
            :: logMessages s)
         (isLoading s) (Some (next_timer s)) [next_timer s] (next_timer s + 1)
         (toasts s) (requests s) (inflight s)).
Proof.
  intros now interval s H. pose proof (startPolling_state now interval s H) as E.
  unfold exec in E.
  destruct (startPolling now interval s) as [[[]|e] s1] eqn:Es; cbn in E; subst s1;
    [reflexivity|].
  exfalso. revert Es. unfold startPolling; unfold bind at 1.
  rewrite stopPolling_run by exact H. unfold_M. discriminate.
Qed.

Definition POLLING_STARTED : jsstr := js "状态轮询已启动，间隔: " ++ js_of_Z 1000 ++ js "ms".

(** C6 (as amended): for a 2xx command response whose body carries
    [detailed_results] with N entries, the handler logs those N entries,
    one per entry and in the order returned (the log is newest first, so
    they appear reversed at its head), each as
    [> "<command>": <message> (<status>)]; the only other entry it may add
    is the one of [startPolling], after them. *)
Theorem detailed_results_logged :
  forall s i now http b rs,
    reachable s ->
    nth_error (inflight s) i = Some PCommand ->
    r_detailed_results b = Some rs ->
    exists s', step s (EvResolve i now (Response true http (Body b))) = Some s'
      /\ exists extra,
           logMessages s' =
           extra ++ rev (map (fun res => log_entry now (result_line res)) rs) ++ logMessages s
           /\ (extra = [] \/ extra = [log_entry now POLLING_STARTED]).
Proof.
  intros s i now http b rs Hr Hi Hd.
  pose proof (session_reachable s Hr) as Hs.
  unfold step; rewrite Hi.
  eexists; split; [reflexivity|].
  unfold_handlers. unfold exec, finally, try_catch. cbn - [forEach status_is startPolling].
  rewrite Hd. cbn - [forEach status_is startPolling].
  rewrite bind_forEach_addLog. cbn - [status_is startPolling].
  destruct (r_robot_status b) as [rsd|]; cbn - [status_is startPolling];
    destruct (status_is b "success" && truthy (r_motion_started b));
    cbn - [status_is startPolling];
    try destruct (status_is b "error"); cbn - [startPolling].
  all: try (rewrite startPolling_run by exact Hs; cbn;
            exists [log_entry now POLLING_STARTED]; unfold POLLING_STARTED;
            split; [reflexivity | right; reflexivity]).
  all: exists []; split; [reflexivity | left; reflexivity].
Qed.

Lemma reachable_sending : reachable sending.
Proof.
  apply (reachable_step mounted (EvSend T0 (js "MOVE J1 30")));
    [exact reachable_mounted | reflexivity].
Qed.

Definition two_results : list DetailedResult :=
  [mkDetailedResult (js "MOVE J1 30") (js "success") (js "ok");
   mkDetailedResult (js "MOVE J2 10") (js "success") (js "ok")].

Definition results_body : RespBody :=
  mkRespBody (Some (js "success")) None (Some false) None (Some two_results).

Lemma detailed_results_logged_witness :
  exists s', step sending (EvResolve 0 T0 (Response true 200 (Body results_body))) = Some s'.
Proof.
  destruct (detailed_results_logged sending 0 T0 200 results_body two_results
              reachable_sending eq_refl eq_refl) as (s' & E & _).
  exists s'. exact E.
Defined.

(** C6 as stated is refuted: a command response with HTTP 400 whose body
    carries two [detailed_results] entries adds one log entry, the error
    entry, and none for the results. *)
Lemma detailed_results_non2xx_counterexample :
  match step sending (EvResolve 0 T0 (Response false 400 (Body results_body))) with
  | Some s' => logMessages s' =
               log_entry T0 (js "错误: " ++ js "未知服务器错误") :: logMessages sending
               /\ length (logMessages s') = S (length (logMessages sending))
  | None => False
  end.
Proof. vm_compute. split; reflexivity. Qed.

(** C10 (as amended): a 2xx command response whose body has [status]
    "error" and a [robot_status] snapshot sets [connected = true],
    [errorMessage = null] and [data] to that snapshot, shows the backend's
    message in a destructive toast, and starts no polling. *)
Theorem backend_error_keeps_connected :
  forall s i now http b rs,
    nth_error (inflight s) i = Some PCommand ->
    r_status b = Some (js "error") ->
    r_robot_status b = Some rs ->
    exists s', step s (EvResolve i now (Response true http (Body b))) = Some s'
      /\ connected (robotState s') = true
      /\ errorMessage (robotState s') = None
      /\ data (robotState s') = Some rs
      /\ toasts s' = mkToast (js "指令错误") (r_message b) true :: toasts s
      /\ isLoading s' = false
      /\ pollingInterval s' = pollingInterval s /\ timers s' = timers s.
Proof.
  intros s i now http b rs Hi Hst Hrs.
  assert (Hs : status_is b "success" = false).
  { unfold status_is. rewrite Hst. reflexivity. }
  assert (He : status_is b "error" = true).
  { unfold status_is. rewrite Hst. apply jsstr_eqb_refl. }
  unfold step; rewrite Hi.
  eexists; split; [reflexivity|].
  unfold_handlers. unfold exec, finally, try_catch. cbn - [forEach status_is].
  rewrite bind_forEach_addLog. cbn - [status_is].
  rewrite Hrs, Hs, He. cbn.
  repeat split.
Qed.

Definition error_body : RespBody :=
  mkRespBody (Some (js "error")) (Some (js "unknown command")) None
             (Some (snap "正在运行")) None.

Lemma backend_error_keeps_connected_witness :
  exists s', step sending (EvResolve 0 T0 (Response true 200 (Body error_body))) = Some s'
             /\ connected (robotState s') = true.
Proof.
  destruct (backend_error_keeps_connected sending 0 T0 200 error_body (snap "正在运行")
              eq_refl eq_refl eq_refl) as (s' & E & Hc & _).
  exists s'. split; [exact E | exact Hc].
Defined.

(** C10 as stated is refuted: the same body with HTTP 400 goes to the
    [catch] block, which sets [connected = false]. *)
Lemma backend_error_non2xx_counterexample :
  match step sending (EvResolve 0 T0 (Response false 400 (Body error_body))) with
  | Some s' => connected (robotState s') = false
               /\ errorMessage (robotState s') = Some (js "unknown command")
  | None => False
  end.
Proof. vm_compute. split; reflexivity. Qed.

(* ------------------------------------------------------------------ *)
(** ** The loading flags *)

Definition rs_loading_off (s : St) : Prop := rs_isLoading (robotState s) = false.

Ltac rs_leaf :=
  intros [[? ? ? ?] ? ? ? ? ? ? ? ?] ?; unfold_M; unfold rs_loading_off in *; cbn in *;
  first [ assumption | reflexivity ].

Lemma rs_stopPolling : preserves rs_loading_off stopPolling.
Proof. unfold stopPolling; preserve_with rs_leaf. Qed.

Lemma rs_startPolling now interval : preserves rs_loading_off (startPolling now interval).
Proof.
  unfold startPolling. preserve_with ltac:(first [ apply rs_stopPolling | rs_leaf ]).
Qed.

Lemma rs_handlers :
  (forall now c, preserves rs_loading_off (handleSendCommand_start now c))
  /\ preserves rs_loading_off pollRobotStatus_start
  /\ (forall p now r, preserves rs_loading_off (resume p now r))
  /\ preserves rs_loading_off onUnmounted.
Proof.
  split; [|split; [|split]]; [intros t c | | intros p t r; destruct p | ];
    unfold_handlers;
    preserve_with ltac:(first [ apply rs_stopPolling | apply rs_startPolling | rs_leaf ]).
Qed.

(** C8 (as amended): a tick sets [loading] to true only when
    [robotState.isLoading] is true (and otherwise leaves it as it is);
    handling any poll response, success or failure, sets both
    [robotState.isLoading] and [loading] to false; and no event but mounting
    sets [robotState.isLoading] back to true.  So only the poll issued at
    mount shows [loading]: once it has resolved, no tick, the first tick
    of a session included, sets [loading]. *)
Theorem loading_only_initial_poll :
  (forall s h s', step s (EvTick h) = Some s' ->
     isLoading s' = isLoading s || rs_isLoading (robotState s)
     /\ rs_isLoading (robotState s') = rs_isLoading (robotState s))
  /\ (forall s i now r s', nth_error (inflight s) i = Some PStatus ->
        step s (EvResolve i now r) = Some s' ->
        isLoading s' = false /\ rs_isLoading (robotState s') = false)
  /\ (forall s ev s', (forall now, ev <> EvMount now) ->
        rs_isLoading (robotState s) = false -> step s ev = Some s' ->
        rs_isLoading (robotState s') = false).
Proof.
  split; [|split].
  - intros s h s' E. unfold step in E.
    destruct (existsb (Z.eqb h) (timers s)); [|discriminate].
    injection E as <-. destruct s as [[c l e d] logs il p tms nt ts rq inf].
    unfold pollRobotStatus_start; unfold_M; cbn.
    destruct l, il; cbn; split; reflexivity.
  - intros s i now r s' Hi E. unfold step in E. rewrite Hi in E.
    injection E as <-. unfold exec, resume, pollRobotStatus_resume, finally.
    destruct (try_catch (status_response now r) (status_failed now)
                (set_inflight (remove_nth i (inflight s)) s)) as [x s1].
    unfold_M. cbn. split; reflexivity.
  - destruct rs_handlers as (H2 & H3 & H4 & H5).
    intros s ev s' Hm Hl E.
    destruct ev as [now|now c|h|i now r|]; unfold step in E.
    + exfalso. exact (Hm now eq_refl).
    + injection E as <-. exact (H2 now c s Hl).
    + destruct (existsb (Z.eqb h) (timers s)); [|discriminate].
      injection E as <-. exact (H3 s Hl).
    + destruct (nth_error (inflight s) i) as [p|]; [|discriminate].
      injection E as <-. apply H4. exact Hl.
    + injection E as <-. exact (H5 s Hl).
Qed.


Lemma loading_only_initial_poll_witness :
  exists s', step polling (EvTick 1) = Some s' /\ isLoading s' = false.
Proof.
  eexists; split; [reflexivity|].
  destruct (proj1 loading_only_initial_poll polling 1 _ eq_refl) as [H _].
  rewrite H. vm_compute. reflexivity.
Defined.

Definition running_response : FetchResult :=
  Response true 200 (Body (body "success" None (Some (snap "正在运行")) None)).

(** C8 as stated is refuted twice over.  The first tick of the session that
    scenario A starts leaves [loading] false while its fetch is pending; and
    a later tick of that session, issued before a new dispatch stops the
    session, answers while the dispatch is in flight and turns [loading]
    from true to false. *)
Lemma loading_first_tick_counterexample :
  match run init (scenario_A ++ [EvTick 1]) with
  | Some s => inflight s = [PStatus] /\ isLoading s = false
  | None => False
  end
  /\ match run init (scenario_A ++
                     [EvTick 1; EvResolve 0 T0 running_response; EvTick 1;
                      EvSend T0 (js "STOP_MOVE")]) with
     | Some s => inflight s = [PCommand; PStatus] /\ isLoading s = true
                 /\ match step s (EvResolve 1 T0 running_response) with
                    | Some s' => isLoading s' = false
                    | None => False
                    end
     | None => False
     end.
Proof. vm_compute. repeat split. Qed.

(* ------------------------------------------------------------------ *)
(** ** Dispatch, mount and unmount *)

Lemma jsstr_eqb_neq : forall a b, a <> b -> jsstr_eqb a b = false.
Proof. intros a b H. unfold jsstr_eqb. destruct (list_eq_dec Z.eq_dec a b); congruence. Qed.

(** A command that is not blank after [trim()]: [loading] is set, the batch
    is logged, the polling session is ended (no timer left) and exactly one
    [/api/command] request is issued, whose continuation is pending;
    [robotState] and the toasts are untouched. *)
Theorem send_nonblank_dispatches :
  forall s now command,
    reachable s -> js_trim command <> [] ->
    exec (handleSendCommand_start now command) s =
    mkSt (robotState s) (log_entry now (batch_summary command) :: logMessages s)
         true None [] (next_timer s) (toasts s)
         (ApiCommand command :: requests s) (PCommand :: inflight s).
Proof.
  intros s now command Hr Hne. pose proof (session_reachable s Hr) as Hs.
  unfold handleSendCommand_start. rewrite (jsstr_eqb_neq _ _ Hne).
  unfold exec, bind at 1 2; cbn - [stopPolling].
  unfold bind. rewrite stopPolling_run by exact Hs. reflexivity.
Qed.

Lemma send_nonblank_dispatches_witness :
  js_trim (js "MOVE J1 30") <> []
  /\ requests (exec (handleSendCommand_start T0 (js "MOVE J1 30")) mounted)
     = ApiCommand (js "MOVE J1 30") :: requests mounted.
Proof.
  assert (H : js_trim (js "MOVE J1 30") <> []) by (vm_compute; discriminate).
  split; [exact H|].
  rewrite (send_nonblank_dispatches mounted T0 (js "MOVE J1 30") reachable_mounted H).
  reflexivity.
Defined.



(** Unmounting a reachable view clears every timer and the stored interval
    id, and changes nothing else: the fetches still pending stay pending. *)
Theorem unmount_clears_timers :
  forall s, reachable s ->
    step s EvUnmount =
    Some (mkSt (robotState s) (logMessages s) (isLoading s) None [] (next_timer s)
               (toasts s) (requests s) (inflight s)).
Proof.
  intros s Hr. unfold step, onUnmounted.
  rewrite (stopPolling_clears s (session_reachable s Hr)). reflexivity.
Qed.

Lemma unmount_clears_timers_witness :
  exists s', step polling EvUnmount = Some s' /\ timers polling = [1] /\ timers s' = [].
Proof.
  pose proof reachable_polling as Hr.
  eexists; split; [exact (unmount_clears_timers polling Hr)|].
  split; vm_compute; reflexivity.
Defined.

(** The pending requests and issued requests, fixed. *)
Definition io_fixed (L : list Pending) (R : list Request) (s : St) : Prop :=
  inflight s = L /\ requests s = R.

Ltac io_leaf :=
  intros [? ? ? ? ? ? ? ? ?] ?; unfold_M; unfold io_fixed in *; cbn in *; assumption.

Lemma io_stopPolling L R : preserves (io_fixed L R) stopPolling.
Proof. unfold stopPolling; preserve_with io_leaf. Qed.

Lemma io_startPolling L R now interval : preserves (io_fixed L R) (startPolling now interval).
Proof. unfold startPolling; preserve_with ltac:(first [ apply io_stopPolling | io_leaf ]). Qed.

Lemma io_resume L R p now r : preserves (io_fixed L R) (resume p now r).
Proof.
  destruct p; unfold_handlers;
    preserve_with ltac:(first [ apply io_stopPolling | apply io_startPolling | io_leaf ]).
Qed.

Lemma finally_isLoading_false :
  forall (m : M unit) (f : M unit) s,
    (forall s1, isLoading (snd (f s1)) = false) ->
    isLoading (exec (finally m f) s) = false.
Proof.
  intros m f s Hf. unfold exec, finally.
  destruct (m s) as [x s1]. specialize (Hf s1).
  destruct (f s1) as [[[]|e] s2]; destruct x; exact Hf.
Qed.

(** Handling the response of any pending fetch, a dispatch or a poll,
    whatever it is, removes exactly that continuation from the pending ones,
    issues no new request (nothing is retried), and ends with [loading]
    false. *)
Theorem resolve_no_new_request :
  forall s i now r p s',
    nth_error (inflight s) i = Some p ->
    step s (EvResolve i now r) = Some s' ->
    inflight s' = remove_nth i (inflight s)
    /\ requests s' = requests s
    /\ isLoading s' = false.
Proof.
  intros s i now r p s' Hi E. unfold step in E. rewrite Hi in E. injection E as <-.
  split; [|split].
  - refine (proj1 (io_resume (remove_nth i (inflight s)) (requests s) p now r _ _)).
    split; reflexivity.
  - refine (proj2 (io_resume (remove_nth i (inflight s)) (requests s) p now r _ _)).
    split; reflexivity.
  - destruct p; apply finally_isLoading_false; intros s1; unfold_M; cbn;
      [reflexivity|].
    destruct s1; reflexivity.
Qed.

Lemma resolve_no_new_request_witness :
  exists s', step sending (EvResolve 0 T0 (NetworkError (js "Failed to fetch"))) = Some s'
    /\ inflight s' = remove_nth 0 (inflight sending) /\ isLoading s' = false.
Proof.
  eexists. split; [reflexivity|].
  destruct (resolve_no_new_request sending 0 T0 (NetworkError (js "Failed to fetch"))
              PCommand _ eq_refl eq_refl) as (H1 & _ & H3).
  split; [exact H1 | exact H3].
Defined.

(* ------------------------------------------------------------------ *)
(** ** The branches of a 2xx command response *)

(** A 2xx command response whose [status] is "success" with
    [motion_started] true starts exactly one polling session of 1000 ms
    (a fresh interval, the only active timer), with the success toast. *)
Theorem motion_started_starts_polling :
  forall s i now http b,
    reachable s ->
    nth_error (inflight s) i = Some PCommand ->
    r_status b = Some (js "success") -> r_motion_started b = Some true ->
    exists s', step s (EvResolve i now (Response true http (Body b))) = Some s'
      /\ pollingInterval s' = Some (next_timer s)
      /\ timers s' = [next_timer s]
      /\ hd_error (logMessages s') = Some (log_entry now POLLING_STARTED)
      /\ toasts s' = mkToast (js "成功") (Some (js "运动已启动，开始轮询状态。")) false
                       :: toasts s
      /\ isLoading s' = false.
Proof.
  intros s i now http b Hr Hi Hst Hm.
  pose proof (session_reachable s Hr) as Hs.
  assert (Hok : status_is b "success" && truthy (r_motion_started b) = true).
  { unfold status_is. rewrite Hst, Hm, jsstr_eqb_refl. reflexivity. }
  unfold step; rewrite Hi.
  eexists; split; [reflexivity|].
  unfold_handlers. unfold exec, finally, try_catch. cbn - [forEach status_is startPolling].
  rewrite bind_forEach_addLog. cbn - [status_is startPolling].
  destruct (r_robot_status b); cbn - [status_is startPolling]; rewrite Hok;
    cbn - [startPolling]; rewrite startPolling_run by exact Hs; cbn;
    unfold POLLING_STARTED; repeat split.
Qed.

Definition motion_body : RespBody :=
  body "success" (Some true) (Some (snap "正在运行")) None.

Lemma motion_started_starts_polling_witness :
  exists s', step sending (EvResolve 0 T0 (Response true 200 (Body motion_body))) = Some s'
             /\ timers s' = [next_timer sending].
Proof.
  destruct (motion_started_starts_polling sending 0 T0 200 motion_body reachable_sending
              eq_refl eq_refl eq_refl) as (s' & E & _ & Ht & _).
  exists s'. split; [exact E | exact Ht].
Defined.

(** A 2xx command response that does not both have [status] "success" and
    a truthy [motion_started] starts no polling: the interval id, the timers
    and the timer counter stay as they were; exactly one toast is shown and
    [loading] ends false. *)
Theorem no_motion_no_polling :
  forall s i now http b,
    nth_error (inflight s) i = Some PCommand ->
    status_is b "success" && truthy (r_motion_started b) = false ->
    exists s', step s (EvResolve i now (Response true http (Body b))) = Some s'
      /\ pollingInterval s' = pollingInterval s
      /\ timers s' = timers s /\ next_timer s' = next_timer s
      /\ (exists t, toasts s' = t :: toasts s)
      /\ isLoading s' = false.
Proof.
  intros s i now http b Hi Hno.
  unfold step; rewrite Hi.
  eexists; split; [reflexivity|].
  unfold_handlers. unfold exec, finally, try_catch. cbn - [forEach status_is startPolling].
  rewrite bind_forEach_addLog. cbn - [status_is startPolling].
  destruct (r_robot_status b); cbn - [status_is startPolling]; rewrite Hno;
    cbn - [status_is]; destruct (status_is b "error"); cbn;
    (split; [reflexivity | split; [reflexivity | split; [reflexivity|]]]);
    (split; [eexists; reflexivity | reflexivity]).
Qed.

Lemma no_motion_no_polling_witness :
  exists s', step sending (EvResolve 0 T0 (Response true 200 (Body results_body))) = Some s'
             /\ pollingInterval s' = pollingInterval sending.
Proof.
  destruct (no_motion_no_polling sending 0 T0 200 results_body eq_refl eq_refl)
    as (s' & E & Hp & _).
  exists s'. split; [exact E | exact Hp].
Defined.

(** A 2xx command response writes [robotState] only through [robot_status]:
    with a snapshot it sets [connected = true], [errorMessage = null] and
    [data] to it; without one [robotState] is left exactly as it was. *)
Theorem command_response_robotState :
  forall s i now http b,
    reachable s ->
    nth_error (inflight s) i = Some PCommand ->
    exists s', step s (EvResolve i now (Response true http (Body b))) = Some s'
      /\ robotState s' =
         match r_robot_status b with
         | Some rs => mkRobotState true (rs_isLoading (robotState s)) None (Some rs)
         | None => robotState s
         end.
Proof.
  intros s i now http b Hr Hi.
  pose proof (session_reachable s Hr) as Hs.
  unfold step; rewrite Hi.
  eexists; split; [reflexivity|].
  unfold_handlers. unfold exec, finally, try_catch. cbn - [forEach status_is startPolling].
  rewrite bind_forEach_addLog. cbn - [status_is startPolling].
  destruct (r_robot_status b); cbn - [status_is startPolling];
    destruct (status_is b "success" && truthy (r_motion_started b));
    cbn - [status_is startPolling];
    try (rewrite startPolling_run by exact Hs);
    try destruct (status_is b "error"); reflexivity.
Qed.

Lemma command_response_robotState_witness :
  exists s', step sending (EvResolve 0 T0 (Response true 200 (Body results_body))) = Some s'
             /\ robotState s' = robotState sending.
Proof.
  destruct (command_response_robotState sending 0 T0 200 results_body reachable_sending
              eq_refl) as (s' & E & H).
  exists s'. split; [exact E | exact H].
Defined.

(* ------------------------------------------------------------------ *)
(** ** A successful poll, and overlapping ticks *)

Lemma poll_success_state :
  forall s i now http b rs,
    reachable s ->
    nth_error (inflight s) i = Some PStatus ->
    r_status b = Some (js "success") ->
    r_robot_status b = Some rs ->
    exists s', step s (EvResolve i now (Response true http (Body b))) = Some s'
      /\ robotState s' = mkRobotState true false None (Some rs)
      /\ isLoading s' = false
      /\ (stop_condition rs = false ->
          logMessages s' = logMessages s
          /\ pollingInterval s' = pollingInterval s /\ timers s' = timers s).
Proof.
  intros s i now http b rs Hr Hi Hst Hrs.
  pose proof (session_reachable s Hr) as (Ht & Hh & Hn).
  destruct b as [st msg ms rsd dr]; cbn in Hst, Hrs; subst st rsd.
  assert (Hsucc : status_is (mkRespBody (Some (js "success")) msg ms (Some rs) dr) "success" = true).
  { unfold status_is; cbn. apply jsstr_eqb_refl. }
  unfold step; rewrite Hi; eexists; split; [reflexivity|].
  unfold_handlers; unfold_M; cbn - [stopPolling status_is stop_condition].
  rewrite Hsucc; cbn - [stopPolling stop_condition].
  destruct (stop_condition rs); cbn - [stopPolling].
  - rewrite stopPolling_run by exact (conj Ht (conj Hh Hn)); cbn.
    repeat split; discriminate.
  - repeat split.
Qed.

(** A successful poll whose snapshot does not meet the stop condition keeps
    the session running (same interval, same timers), logs nothing, and sets
    [connected = true], [errorMessage = null], [data] to the snapshot and
    both loading flags to false. *)
Theorem poll_running_keeps_session :
  forall s i now http b rs,
    reachable s ->
    nth_error (inflight s) i = Some PStatus ->
    r_status b = Some (js "success") ->
    r_robot_status b = Some rs ->
    stop_condition rs = false ->
    exists s', step s (EvResolve i now (Response true http (Body b))) = Some s'
      /\ pollingInterval s' = pollingInterval s /\ timers s' = timers s
      /\ logMessages s' = logMessages s
      /\ connected (robotState s') = true /\ errorMessage (robotState s') = None
      /\ data (robotState s') = Some rs
      /\ rs_isLoading (robotState s') = false /\ isLoading s' = false.
Proof.
  intros s i now http b rs Hr Hi Hst Hrs Hstop.
  destruct (poll_success_state s i now http b rs Hr Hi Hst Hrs) as (s' & E & Hrs' & Hl & H).
  destruct (H Hstop) as (Hlog & Hp & Ht).
  exists s'. rewrite Hrs'. cbn. repeat split; assumption.
Qed.

Lemma poll_running_keeps_session_witness :
  exists s', step polling (EvTick 1) = Some s'
    /\ exists s'', step s' (EvResolve 0 T0 running_response) = Some s''
                   /\ timers s'' = [1].
Proof.
  pose proof reachable_polling as Hr.
  eexists; split; [reflexivity|].
  destruct (poll_running_keeps_session _ 0 T0 200
              (body "success" None (Some (snap "正在运行")) None) (snap "正在运行")
              (reachable_step polling (EvTick 1) _ Hr eq_refl)
              eq_refl eq_refl eq_refl eq_refl) as (s'' & E & _ & Ht & _).
  exists s''. split; [exact E|]. rewrite Ht. vm_compute. reflexivity.
Defined.

Lemma repeat_shift {A} (x : A) :
  forall k l, repeat x k ++ x :: l = x :: repeat x k ++ l.
Proof. induction k as [|k IH]; intros l; cbn; [reflexivity | rewrite IH; reflexivity]. Qed.

(** A tick does not wait for the previous poll: while interval [h] is
    active, k ticks issue k [/api/status] requests and leave k poll
    continuations pending, without touching the timers, the log or
    [robotState]. *)
Theorem ticks_overlap :
  forall k s h, In h (timers s) ->
    exists s', run s (repeat (EvTick h) k) = Some s'
      /\ inflight s' = repeat PStatus k ++ inflight s
      /\ requests s' = repeat ApiStatus k ++ requests s
      /\ timers s' = timers s
      /\ logMessages s' = logMessages s
      /\ robotState s' = robotState s.
Proof.
  induction k as [|k IH]; intros s h Hin.
  - exists s. repeat split.
  - assert (Hx : existsb (Z.eqb h) (timers s) = true).
    { apply existsb_exists. exists h. split; [exact Hin | apply Z.eqb_refl]. }
    cbn [repeat run]. unfold step at 1. rewrite Hx.
    set (s1 := exec pollRobotStatus_start s).
    assert (E1 : inflight s1 = PStatus :: inflight s /\ requests s1 = ApiStatus :: requests s
                 /\ timers s1 = timers s /\ logMessages s1 = logMessages s
                 /\ robotState s1 = robotState s).
    { subst s1. destruct s as [rs logs il p tms nt ts rq inf].
      unfold pollRobotStatus_start; unfold_M; cbn.
      destruct (rs_isLoading rs); repeat split. }
    destruct E1 as (Hi1 & Hr1 & Ht1 & Hl1 & Hs1).
    rewrite <- Ht1 in Hin.
    destruct (IH s1 h Hin) as (s' & E & Hi & Hq & Ht & Hl & Hs).
    exists s'. split; [exact E|].
    rewrite Hi, Hq, Ht, Hl, Hs, Hi1, Hr1, Ht1, Hl1, Hs1.
    rewrite !repeat_shift. repeat split.
Qed.

Lemma ticks_overlap_witness :
  exists s', run polling (repeat (EvTick 1) 3) = Some s'
             /\ inflight s' = [PStatus; PStatus; PStatus].
Proof.
  destruct (ticks_overlap 3 polling 1 ltac:(vm_compute; left; reflexivity))
    as (s' & E & Hi & _).
  exists s'. split; [exact E|]. rewrite Hi. vm_compute. reflexivity.
Defined.

(* ------------------------------------------------------------------ *)
(** ** The log only grows at its head *)

Definition log_extends (L : list jsstr) (s : St) : Prop :=
  exists new, logMessages s = new ++ L.

Ltac log_leaf :=
  intros [? ? ? ? ? ? ? ? ?] [new Hn]; unfold_M; unfold log_extends; cbn in *;
  first [ exists new; exact Hn | rewrite Hn, app_comm_cons; eexists; reflexivity ].

Lemma log_stopPolling L : preserves (log_extends L) stopPolling.
Proof. unfold stopPolling; preserve_with log_leaf. Qed.

Lemma log_startPolling L now interval : preserves (log_extends L) (startPolling now interval).
Proof. unfold startPolling; preserve_with ltac:(first [ apply log_stopPolling | log_leaf ]). Qed.

Lemma log_handlers L :
  (forall now, preserves (log_extends L) (onMounted now))
  /\ (forall now c, preserves (log_extends L) (handleSendCommand_start now c))
  /\ preserves (log_extends L) pollRobotStatus_start
  /\ (forall p now r, preserves (log_extends L) (resume p now r))
  /\ preserves (log_extends L) onUnmounted.
Proof.
  split; [|split; [|split; [|split]]]; [intros t | intros t c | | intros p t r; destruct p | ];
    unfold_handlers;
    preserve_with ltac:(first [ apply log_stopPolling | apply log_startPolling | log_leaf ]).
Qed.

(** No event removes or rewrites a log entry: every event only puts new
    entries in front of the log it finds. *)
Theorem log_append_only :
  forall s ev s', step s ev = Some s' ->
    exists new, logMessages s' = new ++ logMessages s.
Proof.
  intros s ev s' E.
  destruct (log_handlers (logMessages s)) as (H1 & H2 & H3 & H4 & H5).
  assert (H0 : log_extends (logMessages s) s) by (exists []; reflexivity).
  destruct ev as [now|now c|h|i now r|]; unfold step in E.
  - injection E as <-. exact (H1 now s H0).
  - injection E as <-. exact (H2 now c s H0).
  - destruct (existsb (Z.eqb h) (timers s)); [|discriminate].
    injection E as <-. exact (H3 s H0).
  - destruct (nth_error (inflight s) i) as [p|]; [|discriminate].
    injection E as <-. apply H4. exact H0.
  - injection E as <-. exact (H5 s H0).
Qed.

Lemma log_append_only_witness :
  exists s' new, step sending (EvResolve 0 T0 (Response true 200 (Body results_body))) = Some s'
                 /\ logMessages s' = new ++ logMessages sending.
Proof.
  eexists. destruct (log_append_only sending
                       (EvResolve 0 T0 (Response true 200 (Body results_body))) _ eq_refl)
    as (new & H).
  exists new. split; [reflexivity | exact H].
Defined.

(* ------------------------------------------------------------------ *)
(** ** What the panels show *)

Lemma jsstr_eqb_eq : forall a b, jsstr_eqb a b = true -> a = b.
Proof. intros a b. unfold jsstr_eqb. destruct (list_eq_dec Z.eq_dec a b); congruence. Qed.

Lemma poll_failure_state :
  forall s i now r,
    reachable s ->
    nth_error (inflight s) i = Some PStatus ->
    poll_success r = false ->
    exists s' m, step s (EvResolve i now r) = Some s'
      /\ robotState s' =
         mkRobotState false false (Some (js_or_str m (js "无法连接到后端服务。")))
                      (Some failed_placeholder).
Proof.
  intros s i now r Hr Hi Hfail.
  pose proof (session_reachable s Hr) as (Ht & Hh & Hn).
  unfold step; rewrite Hi.
  destruct r as [m|ok http [m|b]].
  - eexists; exists m. split; [reflexivity|].
    unfold_handlers; unfold_M; cbn - [stopPolling].
    rewrite stopPolling_run by exact (conj Ht (conj Hh Hn)); reflexivity.
  - eexists; exists m. split; [reflexivity|].
    unfold_handlers; unfold_M; cbn - [stopPolling].
    rewrite stopPolling_run by exact (conj Ht (conj Hh Hn)); reflexivity.
  - destruct ok.
    + cbn in Hfail.
      destruct (status_is b "success") eqn:Es; cbn in Hfail.
      * destruct (r_robot_status b) as [rs|] eqn:Er; [discriminate|].
        eexists; exists undefined_run_status. split; [reflexivity|].
        unfold_handlers; unfold_M; cbn - [stopPolling status_is].
        rewrite Es, Er; cbn - [stopPolling].
        rewrite stopPolling_run by exact (conj Ht (conj Hh Hn)); reflexivity.
      * eexists; exists (js_or (r_message b) (js "获取状态失败")).
        split; [reflexivity|].
        unfold_handlers; unfold_M; cbn - [stopPolling status_is js_or].
        rewrite Es; cbn - [stopPolling js_or].
        rewrite stopPolling_run by exact (conj Ht (conj Hh Hn)); reflexivity.
    + eexists; exists (js_or (r_message b) (js "服务器响应错误 (HTTP " ++ js_of_Z http ++ js ")")).
      split; [reflexivity|].
      unfold_handlers; unfold_M; cbn - [stopPolling js_or js_of_Z].
      rewrite stopPolling_run by exact (conj Ht (conj Hh Hn)); reflexivity.
Qed.

(** After a failed poll the status panel shows the error banner with the
    stored message (never hidden: an empty message is replaced by the
    default text), both badges as destructive, the indicator text
    "已断开" (disconnected), "失败" (failed) as run status and 'N/A' for GV0. *)
Theorem poll_failure_panel :
  forall s i now r,
    reachable s ->
    nth_error (inflight s) i = Some PStatus ->
    poll_success r = false ->
    exists s' m, step s (EvResolve i now r) = Some s'
      /\ error_banner (robotState s') = Some (js_or_str m (js "无法连接到后端服务。"))
      /\ runStatusVariant (robotState s') = Some VDestructive
      /\ alarmStatusVariant (robotState s') = Some VDestructive
      /\ connection_label (robotState s') = js "已断开"
      /\ exists d, data (robotState s') = Some d
                   /\ run_status d = FAILED /\ gv0_text (gv0_value d) = js "N/A".
Proof.
  intros s i now r Hr Hi Hfail.
  destruct (poll_failure_state s i now r Hr Hi Hfail) as (s' & m & E & Hrs).
  exists s', m. rewrite Hrs. split; [exact E|].
  split; [|split; [reflexivity | split; [reflexivity | split; [reflexivity|]]]].
  - unfold error_banner, js_or_str; cbn. destruct m; [vm_compute|]; reflexivity.
  - exists failed_placeholder. repeat split.
Qed.

Lemma poll_failure_panel_witness :
  exists s', step mounted (EvResolve 0 T0 (NetworkError (js "Failed to fetch"))) = Some s'
             /\ connection_label (robotState s') = js "已断开".
Proof.
  destruct (poll_failure_panel mounted 0 T0 (NetworkError (js "Failed to fetch"))
              reachable_mounted eq_refl eq_refl) as (s' & m & E & _ & _ & _ & Hl & _).
  exists s'. split; [exact E | exact Hl].
Defined.

(** After a successful poll the status panel shows "已连接" (connected) and
    no error banner; when the snapshot meets the stop condition (stopped,
    alarm code 0) the run badge is 'outline' and the alarm badge
    'secondary'. *)
Theorem poll_success_panel :
  forall s i now http b rs,
    reachable s ->
    nth_error (inflight s) i = Some PStatus ->
    r_status b = Some (js "success") ->
    r_robot_status b = Some rs ->
    exists s', step s (EvResolve i now (Response true http (Body b))) = Some s'
      /\ connection_label (robotState s') = js "已连接"
      /\ error_banner (robotState s') = None
      /\ (stop_condition rs = true ->
          runStatusVariant (robotState s') = Some VOutline
          /\ alarmStatusVariant (robotState s') = Some VSecondary).
Proof.
  intros s i now http b rs Hr Hi Hst Hrs.
  destruct (poll_success_state s i now http b rs Hr Hi Hst Hrs) as (s' & E & Hrs' & _).
  exists s'. rewrite Hrs'. split; [exact E|].
  split; [reflexivity | split; [reflexivity|]].
  intros Hstop. unfold stop_condition in Hstop.
  apply andb_prop in Hstop as [Hrun Hal].
  apply jsstr_eqb_eq in Hrun.
  unfold runStatusVariant, alarmStatusVariant; cbn - [jsstr_eqb STOPPED].
  rewrite Hrun. destruct (alarm_code rs) as [c|]; [|discriminate].
  apply Z.eqb_eq in Hal. subst c. split; [vm_compute|]; reflexivity.
Qed.

Lemma poll_success_panel_witness :
  exists s', step mounted (EvResolve 0 T0 (Response true 200 (Body stopped_body))) = Some s'
             /\ runStatusVariant (robotState s') = Some VOutline.
Proof.
  destruct (poll_success_panel mounted 0 T0 200 stopped_body (snap "停止") reachable_mounted
              eq_refl eq_refl eq_refl) as (s' & E & _ & _ & H).
  exists s'. split; [exact E | exact (proj1 (H eq_refl))].
Defined.


